(** * python_common_libs: the database helpers of [db/async_db.py] and
    [db/async_db_transaction.py]

    The two modules wrap an aiomysql connection pool.  The pool, its
    connections and their cursors are external: they are modelled as a
    [Driver], a record of transition functions over an arbitrary world
    type, each of which may return a value or raise.  The Python code is
    embedded in a monad that threads the object [self], the driver's
    world and the list of driver calls issued, and that propagates
    exceptions the way [await], [try/finally] and [async with] do. *)

From Stdlib Require Import ZArith DecimalString.
From stdpp Require Import gmap strings list fin_maps.

(** ** Python values *)

(** A value bound to a placeholder or stored in a row.  A float is kept
    as its [repr], which is what [str] prints. *)
Inductive Value : Type :=
  | VNone
  | VInt (n : Z)
  | VFloat (repr : string)
  | VStr (s : string).

(** A [Dict[str, Any]]: the items in iteration (insertion) order. *)
Definition Row : Type := list (string * Value).

Definition keys (d : Row) : list string := map fst d.
Definition values (d : Row) : list Value := map snd d.

(** What [fetchall] may hand back: [None], a tuple of rows or a list. *)
Inductive PySeq : Type :=
  | PyNone
  | PyTuple (rows : list Row)
  | PyList (rows : list Row).

Definition rows_of (d : PySeq) : list Row :=
  match d with
  | PyNone => []
  | PyTuple rs | PyList rs => rs
  end.

(** Truth value of [data] in [data or []] and [if data]. *)
Definition truthy (d : PySeq) : bool :=
  match d with
  | PyNone => false
  | PyTuple rs | PyList rs => negb (bool_decide (rs = []))
  end.

(** [list(data)] *)
Definition py_list (d : PySeq) : PySeq := PyList (rows_of d).

(** [data or []] *)
Definition py_or_empty (d : PySeq) : PySeq :=
  if truthy d then d else PyList [].

(** [args or None], for the tuple of variadic arguments. *)
Definition args_or_None (args : list Value) : option (list Value) :=
  match args with
  | [] => None
  | _ :: _ => Some args
  end.

(** [str(v)], as applied by ["%s" % v]. *)
Definition py_str (v : Value) : string :=
  match v with
  | VNone => "None"
  | VInt n => NilEmpty.string_of_int (Z.to_int n)
  | VFloat r => r
  | VStr s => s
  end.

(** [sep.join(xs)] *)
Fixpoint join (sep : string) (xs : list string) : string :=
  match xs with
  | [] => ""
  | [x] => x
  | x :: rest => x +:+ sep +:+ join sep rest
  end.

(** The double quote character of the legacy WHERE clause. *)
Definition dquote : string := String (Ascii.ascii_of_nat 34) EmptyString.

(** ** Exceptions and results *)

Inductive exn : Type :=
  | RuntimeError (msg : string)
  | ValueError (msg : string)
  | EngineError (code : Z).

Inductive result (A : Type) : Type :=
  | Ok (a : A)
  | Raise (e : exn).
Arguments Ok {A} a.
Arguments Raise {A} e.

Definition is_ok {A} (r : result A) : bool :=
  match r with Ok _ => true | Raise _ => false end.

(** [exc_type] as seen by [__aexit__]: [None] on a clean exit. *)
Definition exc_of {A} (r : result A) : option exn :=
  match r with Ok _ => None | Raise e => Some e end.

(** ** The driver *)

Definition Pool : Type := nat.
Definition Conn : Type := nat.
Definition Cursor : Type := nat.

Inductive CursorKind : Type := PlainCursor | DictCursor.

(** An entry of the [pool_config] dictionary. *)
Inductive CfgVal : Type :=
  | CNone
  | CBool (b : bool)
  | CInt (n : Z)
  | CStr (s : string).

(** One call on the driver, with what it answered. *)
Inductive Event : Type :=
  | EvCreatePool (cfg : gmap string CfgVal) (r : result Pool)
  | EvAcquire (p : Pool) (r : result Conn)
  | EvRelease (p : Pool) (c : Conn) (r : result unit)
  | EvPoolClose (p : Pool)
  | EvWaitClosed (p : Pool) (r : result unit)
  | EvBegin (c : Conn) (r : result unit)
  | EvCommit (c : Conn) (r : result unit)
  | EvRollback (c : Conn) (r : result unit)
  | EvCursor (c : Conn) (k : CursorKind) (r : result Cursor)
  | EvExecute (cur : Cursor) (sql : string) (params : option (list Value))
      (r : result Z)
  | EvFetchAll (cur : Cursor) (r : result PySeq)
  | EvFetchOne (cur : Cursor) (r : result (option Row))
  | EvCursorClose (cur : Cursor) (r : result unit).

(** aiomysql as seen from the helpers.  [W] is whatever the engine, the
    network and the pool remember between calls. *)
Record Driver (W : Type) : Type := {
  create_pool : gmap string CfgVal -> W -> result Pool * W;
  pool_acquire : Pool -> W -> result Conn * W;
  pool_release : Pool -> Conn -> W -> result unit * W;
  pool_close : Pool -> W -> W;
  pool_wait_closed : Pool -> W -> result unit * W;
  conn_begin : Conn -> W -> result unit * W;
  conn_commit : Conn -> W -> result unit * W;
  conn_rollback : Conn -> W -> result unit * W;
  conn_cursor : Conn -> CursorKind -> W -> result Cursor * W;
  cur_execute : Cursor -> string -> option (list Value) -> W -> result Z * W;
  cur_fetchall : Cursor -> W -> result PySeq * W;
  cur_fetchone : Cursor -> W -> result (option Row) * W;
  cur_lastrowid : Cursor -> W -> Z;
  cur_close : Cursor -> W -> result unit * W;
}.
Arguments create_pool {W}.
Arguments pool_acquire {W}.
Arguments pool_release {W}.
Arguments pool_close {W}.
Arguments pool_wait_closed {W}.
Arguments conn_begin {W}.
Arguments conn_commit {W}.
Arguments conn_rollback {W}.
Arguments conn_cursor {W}.
Arguments cur_execute {W}.
Arguments cur_fetchall {W}.
Arguments cur_fetchone {W}.
Arguments cur_lastrowid {W}.
Arguments cur_close {W}.

(** ** Reading a list of events *)

Inductive TxOp : Type := OpBegin | OpCommit | OpRollback.

(** The transaction-control calls among the events, in order. *)
Fixpoint tx_ops (evs : list Event) : list (Conn * TxOp) :=
  match evs with
  | [] => []
  | EvBegin c _ :: rest => (c, OpBegin) :: tx_ops rest
  | EvCommit c _ :: rest => (c, OpCommit) :: tx_ops rest
  | EvRollback c _ :: rest => (c, OpRollback) :: tx_ops rest
  | _ :: rest => tx_ops rest
  end.

(** The connections handed back to a pool, in order. *)
Fixpoint releases (evs : list Event) : list (Pool * Conn) :=
  match evs with
  | [] => []
  | EvRelease p c _ :: rest => (p, c) :: releases rest
  | _ :: rest => releases rest
  end.

(** The statements sent to the engine with their bound parameters. *)
Fixpoint statements (evs : list Event) : list (string * option (list Value)) :=
  match evs with
  | [] => []
  | EvExecute _ sql params _ :: rest => (sql, params) :: statements rest
  | _ :: rest => statements rest
  end.


Definition event_ok (ev : Event) : bool :=
  match ev with
  | EvCreatePool _ r => is_ok r
  | EvAcquire _ r => is_ok r
  | EvRelease _ _ r => is_ok r
  | EvPoolClose _ => true
  | EvWaitClosed _ r => is_ok r
  | EvBegin _ r => is_ok r
  | EvCommit _ r => is_ok r
  | EvRollback _ r => is_ok r
  | EvCursor _ _ r => is_ok r
  | EvExecute _ _ _ r => is_ok r
  | EvFetchAll _ r => is_ok r
  | EvFetchOne _ r => is_ok r
  | EvCursorClose _ r => is_ok r
  end.

(** No call in the list raised. *)
Definition all_ok (evs : list Event) : bool := forallb event_ok evs.

(** A cursor was obtained. *)
Definition cursor_opened (evs : list Event) : bool :=
  existsb (fun ev => match ev with EvCursor _ _ (Ok _) => true | _ => false end)
    evs.

(** Whether a transaction is open on connection [c] after the events,
    when [open] says whether one was open before them: a [begin] that
    succeeded opens one, a [commit] or [rollback] that succeeded closes
    it, a call that raised changes nothing. *)
Fixpoint tx_open_after (c : Conn) (evs : list Event) (open : bool) : bool :=
  match evs with
  | [] => open
  | EvBegin c' (Ok _) :: rest =>
      tx_open_after c rest (if bool_decide (c' = c) then true else open)
  | EvCommit c' (Ok _) :: rest | EvRollback c' (Ok _) :: rest =>
      tx_open_after c rest (if bool_decide (c' = c) then false else open)
  | _ :: rest => tx_open_after c rest open
  end.

(** ** The monad of the helpers *)

(** The outcome of running a coroutine to completion: what it returned
    or raised, the object [self] and the world it leaves behind, and the
    driver calls it made. *)
Record Run (W S A : Type) : Type := MkRun {
  value : result A;
  state : S;
  world : W;
  issued : list Event;
}.
Arguments MkRun {W S A}.
Arguments value {W S A}.
Arguments state {W S A}.
Arguments world {W S A}.
Arguments issued {W S A}.

Definition M (W S A : Type) : Type := S -> W -> Run W S A.

Section Monad.
Context {W S : Type}.

Definition ret {A} (a : A) : M W S A := fun s w => MkRun (Ok a) s w [].

Definition raise {A} (e : exn) : M W S A :=
  fun s w => MkRun (Raise e) s w [].

Definition bind {A B} (m : M W S A) (f : A -> M W S B) : M W S B :=
  fun s w =>
    match m s w with
    | MkRun (Ok a) s1 w1 evs1 =>
        match f a s1 w1 with
        | MkRun v s2 w2 evs2 => MkRun v s2 w2 (evs1 ++ evs2)
        end
    | MkRun (Raise e) s1 w1 evs1 => MkRun (Raise e) s1 w1 evs1
    end.

(** Reading and assigning the attributes of [self]. *)
Definition self : M W S S := fun s w => MkRun (Ok s) s w [].

Definition assign (f : S -> S) : M W S unit :=
  fun s w => MkRun (Ok tt) (f s) w [].

(** [await] of a driver coroutine: the call is logged with its answer. *)
Definition await {A} (f : W -> result A * W) (ev : result A -> Event)
  : M W S A :=
  fun s w =>
    match f w with
    | (r, w') => MkRun r s w' [ev r]
    end.

(** Reading an attribute of a driver object: no call is made. *)
Definition attribute {A} (f : W -> A) : M W S A :=
  fun s w => MkRun (Ok (f w)) s w [].

(** [try: body finally: fin]: [fin] runs on every path; an exception
    of [fin] replaces the outcome of [body]. *)
Definition try_finally {A} (body : M W S A) (fin : M W S unit) : M W S A :=
  fun s w =>
    match body s w with
    | MkRun v1 s1 w1 evs1 =>
        match fin s1 w1 with
        | MkRun (Ok _) s2 w2 evs2 => MkRun v1 s2 w2 (evs1 ++ evs2)
        | MkRun (Raise e) s2 w2 evs2 => MkRun (Raise e) s2 w2 (evs1 ++ evs2)
        end
    end.

(** [async with cm as x: body], for a context manager whose
    [__aexit__] returns [None]: when [__aenter__] raises, neither the
    body nor [__aexit__] runs; otherwise [__aexit__] runs after the body
    and is told whether the body raised. *)
Definition async_with {T A} (aenter : M W S T)
    (aexit : option exn -> M W S unit) (body : T -> M W S A) : M W S A :=
  fun s w =>
    match aenter s w with
    | MkRun (Raise e) s0 w0 evs0 => MkRun (Raise e) s0 w0 evs0
    | MkRun (Ok x) s0 w0 evs0 =>
        match body x s0 w0 with
        | MkRun v1 s1 w1 evs1 =>
            match aexit (exc_of v1) s1 w1 with
            | MkRun (Ok _) s2 w2 evs2 =>
                MkRun v1 s2 w2 (evs0 ++ evs1 ++ evs2)
            | MkRun (Raise e) s2 w2 evs2 =>
                MkRun (Raise e) s2 w2 (evs0 ++ evs1 ++ evs2)
            end
        end
    end.
End Monad.

(** Running a coroutine of another object [s'] from a method of [self];
    the other object is dropped afterwards. *)
Definition on_object {W S S' A} (s' : S') (m : M W S' A) : M W S A :=
  fun s w =>
    match m s' w with
    | MkRun v _ w' evs => MkRun v s w' evs
    end.

#[global] Instance M_ret {W S} : MRet (M W S) := fun A a => ret a.
#[global] Instance M_bind {W S} : MBind (M W S) := fun A B f m => bind m f.

Section Cursors.
Context {W S : Type} (drv : Driver W).

(** [async with conn.cursor(kind) as cur: body]: aiomysql's context
    manager awaits the cursor on entry and closes it on exit, whether
    the body raised or not; its [__aexit__] returns [None]. *)
Definition with_cursor {A} (c : Conn) (k : CursorKind)
    (body : Cursor -> M W S A) : M W S A :=
  cur ← await (conn_cursor drv c k) (EvCursor c k);
  try_finally (body cur) (await (cur_close drv cur) (EvCursorClose cur)).

(** [async with pool.acquire() as conn: body]: acquires on entry and
    releases on exit. *)
Definition with_acquire {A} (p : Pool) (body : Conn -> M W S A) : M W S A :=
  c ← await (pool_acquire drv p) (EvAcquire p);
  try_finally (body c) (await (pool_release drv p c) (EvRelease p c)).
End Cursors.

(** ** [db/async_db_transaction.py]: [DatabaseConnection] *)

Record DatabaseConnection : Type := {
  pool : Pool;
  conn : Conn;
  autocommit : bool;
  _in_transaction : bool;
}.

Definition set_in_transaction (b : bool) (s : DatabaseConnection)
  : DatabaseConnection :=
  {| pool := pool s; conn := conn s; autocommit := autocommit s;
     _in_transaction := b |}.

Module DatabaseConnection.
Section Methods.
Context {W : Type} (drv : Driver W).
#[local] Abbreviation Co := (M W DatabaseConnection).

Definition __init__ (pool : Pool) (conn : Conn) (autocommit : bool)
  : DatabaseConnection :=
  {| pool := pool; conn := conn; autocommit := autocommit;
     _in_transaction := false |}.

Definition begin : Co unit :=
  s ← self;
  await (conn_begin drv (conn s)) (EvBegin (conn s));;
  assign (set_in_transaction true).

Definition commit : Co unit :=
  s ← self;
  await (conn_commit drv (conn s)) (EvCommit (conn s));;
  assign (set_in_transaction false).

Definition rollback : Co unit :=
  s ← self;
  await (conn_rollback drv (conn s)) (EvRollback (conn s));;
  assign (set_in_transaction false).

Definition __aenter__ : Co unit :=
  s ← self;
  if negb (autocommit s) then begin else mret tt.

Definition __aexit__ (exc_type : option exn) : Co unit :=
  try_finally
    (s ← self;
     if _in_transaction s then
       match exc_type with
       | Some _ => rollback
       | None => commit
       end
     else mret tt)
    (s ← self;
     await (pool_release drv (pool s) (conn s)) (EvRelease (pool s) (conn s))).

Definition query (sql : string) (args : list Value) : Co PySeq :=
  s ← self;
  with_cursor drv (conn s) DictCursor (fun cur =>
    await (cur_execute drv cur sql (args_or_None args))
      (EvExecute cur sql (args_or_None args));;
    data ← await (cur_fetchall drv cur) (EvFetchAll cur);
    mret (if truthy data then py_list data else PyList [])).

Definition get (sql : string) (args : list Value) : Co (option Row) :=
  s ← self;
  with_cursor drv (conn s) DictCursor (fun cur =>
    await (cur_execute drv cur sql (args_or_None args))
      (EvExecute cur sql (args_or_None args));;
    await (cur_fetchone drv cur) (EvFetchOne cur)).

Definition execute (sql : string) (args : list Value) : Co Z :=
  s ← self;
  with_cursor drv (conn s) PlainCursor (fun cur =>
    rows ← await (cur_execute drv cur sql (args_or_None args))
             (EvExecute cur sql (args_or_None args));
    s ← self;
    (if autocommit s
     then await (conn_commit drv (conn s)) (EvCommit (conn s))
     else mret tt);;
    mret rows).

Definition insert (table : string) (data : Row) : Co Z :=
  let fields := keys data in
  let values := values data in
  let placeholders := join "," (replicate (length data) "%s") in
  let sql := "INSERT INTO " +:+ table +:+ " (" +:+ join "," fields
             +:+ ") VALUES (" +:+ placeholders +:+ ")" in
  s ← self;
  with_cursor drv (conn s) PlainCursor (fun cur =>
    await (cur_execute drv cur sql (Some values))
      (EvExecute cur sql (Some values));;
    s ← self;
    (if autocommit s
     then await (conn_commit drv (conn s)) (EvCommit (conn s))
     else mret tt);;
    attribute (cur_lastrowid drv cur)).

Definition update (table : string) (data : Row) (where_ : string)
    (args : list Value) : Co Z :=
  let set_items := map (fun k => k +:+ "=%s") (keys data) in
  let values := values data ++ args in
  let sql := "UPDATE " +:+ table +:+ " SET " +:+ join "," set_items
             +:+ " WHERE " +:+ where_ in
  execute sql values.
End Methods.
End DatabaseConnection.

(** ** [db/async_db_transaction.py]: [AsyncDatabase] *)

Record AsyncDatabase : Type := {
  _AsyncDatabase__pool : option Pool;
  _AsyncDatabase__autocommit : bool;
}.

Definition opt_str (o : option string) : CfgVal :=
  match o with
  | None => CNone
  | Some s => CStr s
  end.

Module AsyncDatabase.
Section Methods.
Context {W : Type} (drv : Driver W).
#[local] Abbreviation Co := (M W AsyncDatabase).

Definition __init__ : AsyncDatabase :=
  {| _AsyncDatabase__pool := None; _AsyncDatabase__autocommit := true |}.

(** The dictionary literal of [connect]: the named entries, then
    [**kwargs], whose entries win. *)
Definition pool_config (host : string) (port : Z)
    (user password db : option string) (charset : string)
    (minsize maxsize : Z) (kwargs : gmap string CfgVal)
  : gmap string CfgVal :=
  kwargs ∪
  (<["host" := CStr host]>
   (<["port" := CInt port]>
    (<["user" := opt_str user]>
     (<["password" := opt_str password]>
      (<["db" := opt_str db]>
       (<["charset" := CStr charset]>
        (<["minsize" := CInt minsize]>
         (<["maxsize" := CInt maxsize]>
          (<["autocommit" := CBool true]> ∅))))))))).

(** The [except] clause logs and re-raises, so a failure of
    [create_pool] propagates as it is; logging is not modelled. *)
Definition connect (host : string) (port : Z)
    (user password db : option string) (charset : string)
    (minsize maxsize : Z) (autocommit : bool)
    (kwargs : gmap string CfgVal) : Co unit :=
  let cfg := pool_config host port user password db charset
               minsize maxsize kwargs in
  p ← await (create_pool drv cfg) (EvCreatePool cfg);
  assign (fun s => {| _AsyncDatabase__pool := Some p;
                      _AsyncDatabase__autocommit :=
                        _AsyncDatabase__autocommit s |});;
  assign (fun s => {| _AsyncDatabase__pool := _AsyncDatabase__pool s;
                      _AsyncDatabase__autocommit := autocommit |}).

Definition get_connection : Co DatabaseConnection :=
  s ← self;
  match _AsyncDatabase__pool s with
  | None => raise (RuntimeError "Database connection pool is not initialized")
  | Some p =>
      conn ← await (pool_acquire drv p) (EvAcquire p);
      await (conn_begin drv conn) (EvBegin conn);;
      await (conn_commit drv conn) (EvCommit conn);;
      s ← self;
      mret (DatabaseConnection.__init__ p conn (_AsyncDatabase__autocommit s))
  end.

(** [async with await self.get_connection() as db: return await body] *)
Definition scoped {A} (body : M W DatabaseConnection A) : Co A :=
  db ← get_connection;
  on_object db
    (async_with (DatabaseConnection.__aenter__ drv)
       (DatabaseConnection.__aexit__ drv) (fun _ => body)).

Definition query (sql : string) (args : list Value) : Co PySeq :=
  scoped (DatabaseConnection.query drv sql args).

Definition get (sql : string) (args : list Value) : Co (option Row) :=
  scoped (DatabaseConnection.get drv sql args).

Definition execute (sql : string) (args : list Value) : Co Z :=
  scoped (DatabaseConnection.execute drv sql args).

Definition insert (table : string) (data : Row) : Co Z :=
  scoped (DatabaseConnection.insert drv table data).

Definition update (table : string) (data : Row) (where_ : string)
    (args : list Value) : Co Z :=
  scoped (DatabaseConnection.update drv table data where_ args).

Definition close : Co unit :=
  s ← self;
  match _AsyncDatabase__pool s with
  | Some p =>
      await (fun w => (Ok tt, pool_close drv p w)) (fun _ => EvPoolClose p);;
      await (pool_wait_closed drv p) (EvWaitClosed p);;
      assign (fun s => {| _AsyncDatabase__pool := None;
                          _AsyncDatabase__autocommit :=
                            _AsyncDatabase__autocommit s |})
  | None => mret tt
  end.
End Methods.
End AsyncDatabase.

(** ** [db/async_db.py]: [AsyncMysqlDB] *)

Record AsyncMysqlDB : Type := {
  _AsyncMysqlDB__pool : Pool;
}.

Module AsyncMysqlDB.
Section Methods.
Context {W : Type} (drv : Driver W).
#[local] Abbreviation Co := (M W AsyncMysqlDB).

Definition __init__ (pool : Pool) : AsyncMysqlDB :=
  {| _AsyncMysqlDB__pool := pool |}.

Definition query (sql : string) (args : list Value) : Co PySeq :=
  s ← self;
  with_acquire drv (_AsyncMysqlDB__pool s) (fun conn =>
    with_cursor drv conn DictCursor (fun cur =>
      await (cur_execute drv cur sql (Some args))
        (EvExecute cur sql (Some args));;
      data ← await (cur_fetchall drv cur) (EvFetchAll cur);
      mret (py_or_empty data))).

Definition get_first (sql : string) (args : list Value)
  : Co (option Row) :=
  s ← self;
  with_acquire drv (_AsyncMysqlDB__pool s) (fun conn =>
    with_cursor drv conn DictCursor (fun cur =>
      await (cur_execute drv cur sql (Some args))
        (EvExecute cur sql (Some args));;
      data ← await (cur_fetchone drv cur) (EvFetchOne cur);
      mret data)).

Definition item_to_table (table_name : string) (item : Row) : Co Z :=
  let fields := keys item in
  let values := values item in
  let fieldstr := join "," fields in
  let valstr := join "," (replicate (length item) "%s") in
  let sql := "INSERT INTO " +:+ table_name +:+ " (" +:+ fieldstr
             +:+ ") VALUES(" +:+ valstr +:+ ")" in
  s ← self;
  with_acquire drv (_AsyncMysqlDB__pool s) (fun conn =>
    with_cursor drv conn DictCursor (fun cur =>
      await (cur_execute drv cur sql (Some values))
        (EvExecute cur sql (Some values));;
      lastrowid ← attribute (cur_lastrowid drv cur);
      mret lastrowid)).

(** The [for k, v in updates.items()] loop: one step appends to both
    lists. *)
Definition update_table_loop (updates : Row) : list string * list Value :=
  fold_left
    (fun acc kv => (acc.1 ++ [kv.1 +:+ "=%s"], acc.2 ++ [kv.2]))
    updates ([], []).

Definition update_table (table_name : string) (updates : Row)
    (field_where : string) (value_where : Value) : Co Z :=
  let upsets := (update_table_loop updates).1 in
  let values := (update_table_loop updates).2 in
  let upsets := join "," upsets in
  let sql := "UPDATE " +:+ table_name +:+ " SET " +:+ upsets
             +:+ " WHERE " +:+ field_where +:+ "=" +:+ dquote
             +:+ py_str value_where +:+ dquote in
  s ← self;
  with_acquire drv (_AsyncMysqlDB__pool s) (fun conn =>
    with_cursor drv conn PlainCursor (fun cur =>
      rows ← await (cur_execute drv cur sql (Some values))
               (EvExecute cur sql (Some values));
      mret rows)).

Definition execute (sql : string) (args : list Value) : Co Z :=
  s ← self;
  with_acquire drv (_AsyncMysqlDB__pool s) (fun conn =>
    with_cursor drv conn PlainCursor (fun cur =>
      rows ← await (cur_execute drv cur sql (Some args))
               (EvExecute cur sql (Some args));
      mret rows)).
End Methods.
End AsyncMysqlDB.

(** ** The operations of a scope, as a caller may issue them *)

Inductive ScopeOp : Type :=
  | OBegin
  | OCommit
  | ORollback
  | OQuery (sql : string) (args : list Value)
  | OGet (sql : string) (args : list Value)
  | OExecute (sql : string) (args : list Value)
  | OInsert (table : string) (data : Row)
  | OUpdate (table : string) (data : Row) (where_ : string) (args : list Value)
  | OAenter
  | OAexit (exc_type : option exn).

(** [execute], [insert] and [update] are the mutating calls. *)
Definition is_mutating (o : ScopeOp) : bool :=
  match o with
  | OExecute _ _ | OInsert _ _ | OUpdate _ _ _ _ => true
  | _ => false
  end.

(** Running one operation on the scope, its result dropped. *)
Definition run_op {W} (drv : Driver W) (o : ScopeOp)
  : M W DatabaseConnection unit :=
  match o with
  | OBegin => DatabaseConnection.begin drv
  | OCommit => DatabaseConnection.commit drv
  | ORollback => DatabaseConnection.rollback drv
  | OQuery sql args => DatabaseConnection.query drv sql args;; mret tt
  | OGet sql args => DatabaseConnection.get drv sql args;; mret tt
  | OExecute sql args => DatabaseConnection.execute drv sql args;; mret tt
  | OInsert table data => DatabaseConnection.insert drv table data;; mret tt
  | OUpdate table data where_ args =>
      DatabaseConnection.update drv table data where_ args;; mret tt
  | OAenter => DatabaseConnection.__aenter__ drv
  | OAexit exc_type => DatabaseConnection.__aexit__ drv exc_type
  end.

(** A caller issuing operations one after another on the same scope,
    catching whatever each of them raises. *)
Fixpoint run_ops {W} (drv : Driver W) (os : list ScopeOp)
  : M W DatabaseConnection unit :=
  match os with
  | [] => ret tt
  | o :: rest =>
      fun s w =>
        match run_op drv o s w with
        | MkRun _ s1 w1 evs1 =>
            match run_ops drv rest s1 w1 with
            | MkRun v s2 w2 evs2 => MkRun v s2 w2 (evs1 ++ evs2)
            end
        end
  end.

(** ** The words of the specification *)

(** ["k=%s,..."]: one term per key, in order, separated by commas. *)
Fixpoint set_clause (ks : list string) : string :=
  match ks with
  | [] => ""
  | [k] => k +:+ "=%s"
  | k :: rest => k +:+ "=%s," +:+ set_clause rest
  end.

(** The flag of a scope tells whether a transaction is open after the
    calls of a run, given that it told so before them. *)
Definition flag_tracks {W} (drv : Driver W) (o : ScopeOp)
    (s : DatabaseConnection) (w : W) : Prop :=
  let r := run_op drv o s w in
  _in_transaction (state r)
  = tx_open_after (conn s) (issued r) (_in_transaction s).

(** What a mutating call issues for the statement [sql] with [params]
    on a scope holding connection [c], read off the answers of the
    driver from world [w]: it asks [c] for a plain cursor; when the
    driver grants one it executes the statement on it; when the statement
    executed and the scope autocommits, it commits on [c] at once; the
    cursor is closed last.  Without autocommit, and when the cursor or
    the statement raised, no commit is issued. *)
Definition commits_each_statement {W} (drv : Driver W) (c : Conn) (ac : bool)
    (sql : string) (params : option (list Value)) (w : W)
    (evs : list Event) : Prop :=
  match conn_cursor drv c PlainCursor w with
  | (Raise e, _) => evs = [EvCursor c PlainCursor (Raise e)]
  | (Ok cur, w1) =>
      match cur_execute drv cur sql params w1 with
      | (Raise e, w2) =>
          evs = [EvCursor c PlainCursor (Ok cur);
                 EvExecute cur sql params (Raise e);
                 EvCursorClose cur (cur_close drv cur w2).1]
      | (Ok n, w2) =>
          if ac
          then evs = [EvCursor c PlainCursor (Ok cur);
                      EvExecute cur sql params (Ok n);
                      EvCommit c (conn_commit drv c w2).1;
                      EvCursorClose cur
                        (cur_close drv cur (conn_commit drv c w2).2).1]
          else evs = [EvCursor c PlainCursor (Ok cur);
                      EvExecute cur sql params (Ok n);
                      EvCursorClose cur (cur_close drv cur w2).1]
      end
  end.

(** The events are those of a call that asks connection [c] for a
    cursor from world [w] and, when the driver grants one, executes on it
    the statement [sql] with [params] and no other statement; when the
    driver refuses the cursor the request is the only call. *)
Definition sends_statement {W} (drv : Driver W) (c : Conn) (k : CursorKind)
    (sql : string) (params : option (list Value)) (w : W)
    (evs : list Event) : Prop :=
  match conn_cursor drv c k w with
  | (Ok cur, w1) =>
      exists rest,
        evs = EvCursor c k (Ok cur)
              :: EvExecute cur sql params
                   (cur_execute drv cur sql params w1).1
              :: rest /\
        statements rest = []
  | (Raise e, _) => evs = [EvCursor c k (Raise e)]
  end.

(** The same for a legacy helper, which first acquires a connection
    from pool [p] and releases it last; when the acquire raises, it is
    the only call. *)
Definition legacy_sends_statement {W} (drv : Driver W) (p : Pool)
    (k : CursorKind) (sql : string) (params : option (list Value)) (w : W)
    (evs : list Event) : Prop :=
  match pool_acquire drv p w with
  | (Ok c, w1) =>
      exists evs' r,
        evs = EvAcquire p (Ok c) :: evs' ++ [EvRelease p c r] /\
        sends_statement drv c k sql params w1 evs'
  | (Raise e, _) => evs = [EvAcquire p (Raise e)]
  end.


(** The run stopped on the pool-not-initialized error before any driver
    call, leaving the object and the world as they were. *)
Definition fails_uninitialized {W A} (s : AsyncDatabase) (w : W)
    (r : Run W AsyncDatabase A) : Prop :=
  r = MkRun (Raise (RuntimeError "Database connection pool is not initialized"))
        s w [].

(** [connect] made one driver call, [create_pool], with a configuration
    whose [autocommit] entry is [True]; on success the object keeps the
    pool and the caller's [autocommit], on failure it is unchanged. *)
Definition creates_autocommit_pool {W} (s : AsyncDatabase) (autocommit : bool)
    (r : Run W AsyncDatabase unit) : Prop :=
  exists cfg a,
    issued r = [EvCreatePool cfg a] /\
    cfg !! "autocommit" = Some (CBool true) /\
    match a with
    | Ok p =>
        value r = Ok tt /\
        state r = {| _AsyncDatabase__pool := Some p;
                     _AsyncDatabase__autocommit := autocommit |}
    | Raise e => value r = Raise e /\ state r = s
    end.

(** [get_connection] returned a wrapper only after acquiring a
    connection and issuing a [begin] and then a [commit] on it, both
    answered; the wrapper holds that connection, the mode of the database
    object and a cleared flag, and no transaction is open on the
    connection.  It raised only for want of a pool or on a driver
    error. *)
Definition hands_out_fresh_scope {W} (s : AsyncDatabase)
    (r : Run W AsyncDatabase DatabaseConnection) : Prop :=
  match value r with
  | Ok sc =>
      exists p c,
        _AsyncDatabase__pool s = Some p /\
        issued r = [EvAcquire p (Ok c); EvBegin c (Ok tt); EvCommit c (Ok tt)] /\
        tx_open_after c (issued r) true = false /\
        sc = {| pool := p; conn := c;
                autocommit := _AsyncDatabase__autocommit s;
                _in_transaction := false |}
  | Raise _ => _AsyncDatabase__pool s = None \/ all_ok (issued r) = false
  end.

(** ** Further readings of a list of events *)

(** The connections a pool handed out, in order. *)
Fixpoint acquired (evs : list Event) : list (Pool * Conn) :=
  match evs with
  | [] => []
  | EvAcquire p (Ok c) :: rest => (p, c) :: acquired rest
  | _ :: rest => acquired rest
  end.

(** The cursors obtained, and the cursors on which [close] was called. *)
Fixpoint opened_cursors (evs : list Event) : list Cursor :=
  match evs with
  | [] => []
  | EvCursor _ _ (Ok cur) :: rest => cur :: opened_cursors rest
  | _ :: rest => opened_cursors rest
  end.

Fixpoint closed_cursors (evs : list Event) : list Cursor :=
  match evs with
  | [] => []
  | EvCursorClose cur _ :: rest => cur :: closed_cursors rest
  | _ :: rest => closed_cursors rest
  end.

(** What the [fetchone] calls answered. *)
Fixpoint fetched_one (evs : list Event) : list (option Row) :=
  match evs with
  | [] => []
  | EvFetchOne _ (Ok d) :: rest => d :: fetched_one rest
  | _ :: rest => fetched_one rest
  end.

(** The exception a call raised, if it did. *)
Definition event_error (ev : Event) : option exn :=
  match ev with
  | EvCreatePool _ r => exc_of r
  | EvAcquire _ r => exc_of r
  | EvRelease _ _ r => exc_of r
  | EvPoolClose _ => None
  | EvWaitClosed _ r => exc_of r
  | EvBegin _ r => exc_of r
  | EvCommit _ r => exc_of r
  | EvRollback _ r => exc_of r
  | EvCursor _ _ r => exc_of r
  | EvExecute _ _ _ r => exc_of r
  | EvFetchAll _ r => exc_of r
  | EvFetchOne _ r => exc_of r
  | EvCursorClose _ r => exc_of r
  end.

(** The exception of the last call that raised, if any did. *)
Fixpoint last_error (evs : list Event) : option exn :=
  match evs with
  | [] => None
  | ev :: rest =>
      match last_error rest with
      | Some e => Some e
      | None => event_error ev
      end
  end.

(** ["c1,c2,..."]: the column names separated by commas. *)
Fixpoint column_list (ks : list string) : string :=
  match ks with
  | [] => ""
  | [k] => k
  | k :: rest => k +:+ "," +:+ column_list rest
  end.

(** ["%s,%s,..."]: [n] placeholders separated by commas. *)
Fixpoint placeholder_list (n : nat) : string :=
  match n with
  | 0 => ""
  | 1 => "%s"
  | S m => "%s," +:+ placeholder_list m
  end.

(** The calls [connect] accepts by name. *)
Definition named_options : list string :=
  ["host"; "port"; "user"; "password"; "db"; "charset"; "minsize";
   "maxsize"; "autocommit"].

(** The pools [create_pool] handed out. *)
Fixpoint created (evs : list Event) : list Pool :=
  match evs with
  | [] => []
  | EvCreatePool _ (Ok p) :: rest => p :: created rest
  | _ :: rest => created rest
  end.

(** ** Further words about runs *)


(** The run returned what [fetchone] answered, or raised because a
    driver call did. *)
Definition returns_first_row {W S} (r : Run W S (option Row)) : Prop :=
  match value r with
  | Ok x => fetched_one (issued r) = [x] /\ all_ok (issued r) = true
  | Raise _ => all_ok (issued r) = false
  end.

(** A legacy helper: no transaction-control call, every connection
    acquired is released, every cursor obtained is closed, and the
    exception that reaches the caller is that of the last call that
    raised. *)
Definition borrows_and_returns {W A} (r : Run W AsyncMysqlDB A) : Prop :=
  tx_ops (issued r) = [] /\
  releases (issued r) = acquired (issued r) /\
  closed_cursors (issued r) = opened_cursors (issued r) /\
  exc_of (value r) = last_error (issued r).

(** An operation of the database object: the object is left as it was;
    the connection is released exactly when [get_connection] and
    [__aenter__] both succeeded; every cursor obtained is closed; and the
    exception that reaches the caller is the pool-not-initialized error
    or that of the last driver call that raised. *)
Definition returns_borrowed_connection {W A} (drv : Driver W)
    (s : AsyncDatabase) (w : W) (r : Run W AsyncDatabase A) : Prop :=
  let g := AsyncDatabase.get_connection drv s w in
  state r = s /\
  releases (issued r)
  = match value g with
    | Ok sc =>
        if is_ok (value (DatabaseConnection.__aenter__ drv sc (world g)))
        then [(pool sc, conn sc)]
        else []
    | Raise _ => []
    end /\
  closed_cursors (issued r) = opened_cursors (issued r) /\
  exc_of (value r)
  = match _AsyncDatabase__pool s with
    | None => Some (RuntimeError "Database connection pool is not initialized")
    | Some _ => last_error (issued r)
    end.

(** ** A scripted driver, for concrete runs *)

(** The world is a script: each call consumes one entry, [true] for an
    answer and [false] for an engine error; past its end every call is
    answered. *)
Definition answer {A} (a : A) (w : list bool) : result A * list bool :=
  match w with
  | [] => (Ok a, [])
  | true :: w' => (Ok a, w')
  | false :: w' => (Raise (EngineError 2006), w')
  end.

Definition scripted (data : PySeq) : Driver (list bool) := {|
  create_pool := fun _ => answer 1;
  pool_acquire := fun _ => answer 7;
  pool_release := fun _ _ => answer tt;
  pool_close := fun _ w => w;
  pool_wait_closed := fun _ => answer tt;
  conn_begin := fun _ => answer tt;
  conn_commit := fun _ => answer tt;
  conn_rollback := fun _ => answer tt;
  conn_cursor := fun _ _ => answer 3;
  cur_execute := fun _ _ _ => answer 1%Z;
  cur_fetchall := fun _ => answer data;
  cur_fetchone := fun _ => answer (head (rows_of data));
  cur_lastrowid := fun _ _ => 42%Z;
  cur_close := fun _ => answer tt;
|}.

Definition scope0 (autocommit in_tx : bool) : DatabaseConnection :=
  {| pool := 1; conn := 7; autocommit := autocommit;
     _in_transaction := in_tx |}.

Definition db0 (autocommit : bool) : AsyncDatabase :=
  {| _AsyncDatabase__pool := Some 1; _AsyncDatabase__autocommit := autocommit |}.

Definition user_row : Row := [("name", VStr "A"); ("age", VInt 25)].

(** Engine-specific extras passed to [connect]. *)
Definition extra_kwargs : gmap string CfgVal :=
  {["connect_timeout" := CInt 5]}.

(** A body as a test writes it: one update, then an exception. *)
Definition update_then_raise {W} (drv : Driver W)
  : M W DatabaseConnection unit :=
  DatabaseConnection.update drv "users" [("age", VInt 41)] "id = %s"
    [VInt 3];;
  raise (ValueError "rollback").

(** * Proofs *)

(** ** Tactics *)

(** Unfolding the methods down to the driver calls they make. *)
Ltac unfold_model :=
  cbv [DatabaseConnection.__aexit__ DatabaseConnection.__aenter__
       DatabaseConnection.begin DatabaseConnection.commit
       DatabaseConnection.rollback DatabaseConnection.query
       DatabaseConnection.get DatabaseConnection.execute
       DatabaseConnection.insert DatabaseConnection.update
       with_cursor with_acquire try_finally async_with on_object
       mbind mret M_bind M_ret bind ret raise self assign await attribute].

Ltac unfold_db :=
  cbv [AsyncDatabase.query AsyncDatabase.get AsyncDatabase.execute
       AsyncDatabase.insert AsyncDatabase.update AsyncDatabase.scoped
       AsyncDatabase.get_connection AsyncDatabase.connect
       AsyncDatabase.close].

(** Case analysis on the answer of the next driver call, as long as one
    is pending. *)
Ltac drive :=
  repeat (cbv beta iota;
          cbn [value state world issued fst snd conn pool autocommit
               _in_transaction set_in_transaction negb exc_of];
          match goal with
          | |- context [match ?x with pair _ _ => _ end] =>
              lazymatch x with ?f ?w => is_var w end;
              destruct x as [[?|?] ?] eqn:?
          end);
  repeat match goal with u : unit |- _ => destruct u end.

Ltac finish := cbn; repeat case_bool_decide; try done; try congruence.

Ltac split_exc :=
  try match goal with
      | |- context [match ?e with Some _ => _ | None => _ end] =>
          is_var e; destruct e
      end.

Ltac simp_run :=
  cbv beta iota;
  cbn [value state world issued fst snd conn pool autocommit
       _in_transaction set_in_transaction negb exc_of is_ok
       _AsyncDatabase__pool _AsyncDatabase__autocommit].

(** Case analysis on every driver call of a run, to the end. *)
Ltac settle := repeat (simp_run; progress drive); simp_run.

(** Closing a goal that lists the events of a run that sent a
    statement. *)
Ltac sent :=
  first [ reflexivity
        | eexists; split; reflexivity
        | eexists _, _; split;
          [ first [ exact eq_refl
                  | exact (eq_refl (_ :: [_] ++ [_]))
                  | exact (eq_refl (_ :: [_; _; _] ++ [_])) ]
          | first [ reflexivity | eexists; split; reflexivity ] ] ].

(** ** Strings and the statement builders *)

Lemma str_app_assoc (s1 s2 s3 : string) :
  (s1 +:+ s2) +:+ s3 = s1 +:+ s2 +:+ s3.
Proof.
  induction s1 as [|a s1 IH]; [reflexivity|].
  change (String a ((s1 +:+ s2) +:+ s3) = String a (s1 +:+ s2 +:+ s3)).
  by rewrite IH.
Qed.

(** Joining the [k=%s] items with commas gives the SET clause. *)
Lemma join_set_clause (ks : list string) :
  join "," (map (fun k => k +:+ "=%s") ks) = set_clause ks.
Proof.
  induction ks as [|k [|k' rest] IH]; [reflexivity..|].
  change (map _ (k :: k' :: rest))
    with ((k +:+ "=%s") :: map (fun k => k +:+ "=%s") (k' :: rest)).
  cbn [join set_clause] in *. rewrite IH.
  destruct (map _ _) eqn:E; [discriminate|].
  rewrite str_app_assoc. reflexivity.
Qed.

Lemma join_column_list (ks : list string) : join "," ks = column_list ks.
Proof.
  induction ks as [|k [|k' rest] IH]; [reflexivity..|].
  cbn [join column_list] in *. by rewrite IH.
Qed.

Lemma join_placeholder_list (n : nat) :
  join "," (replicate n "%s") = placeholder_list n.
Proof.
  induction n as [|[|n] IH]; [reflexivity..|].
  change (replicate (S (S n)) "%s") with ("%s" :: replicate (S n) "%s").
  change (replicate (S n) "%s") with ("%s" :: replicate n "%s") in *.
  cbn [join placeholder_list] in *. by rewrite IH.
Qed.

Lemma update_table_loop_acc (updates : Row) (upsets : list string)
    (vals : list Value) :
  fold_left
    (fun (acc : list string * list Value) (kv : string * Value) =>
       (acc.1 ++ [kv.1 +:+ "=%s"], acc.2 ++ [kv.2]))
    updates (upsets, vals)
  = (upsets ++ map (fun k => k +:+ "=%s") (keys updates),
     vals ++ values updates).
Proof.
  revert upsets vals.
  induction updates as [|[k v] rest IH]; intros upsets vals; simpl.
  - by rewrite !app_nil_r.
  - rewrite IH. by rewrite <- !app_assoc.
Qed.

(** The loop of [update_table] collects one item per key and the values,
    both in iteration order. *)
Lemma update_table_loop_items (updates : Row) :
  AsyncMysqlDB.update_table_loop updates
  = (map (fun k => k +:+ "=%s") (keys updates), values updates).
Proof. apply update_table_loop_acc. Qed.

Lemma args_or_None_nonempty (xs ys : list Value) :
  xs <> [] -> args_or_None (xs ++ ys) = Some (xs ++ ys).
Proof. by destruct xs. Qed.



(** ** Event lists *)

Lemma tx_open_after_app (c : Conn) (evs1 evs2 : list Event) (open : bool) :
  tx_open_after c (evs1 ++ evs2) open
  = tx_open_after c evs2 (tx_open_after c evs1 open).
Proof.
  revert open. induction evs1 as [|ev evs1 IH]; intros open; [reflexivity|].
  destruct ev as [| | | | |? [|]|? [|]|? [|]| | | | |]; cbn; apply IH.
Qed.

Lemma tx_ops_app (evs1 evs2 : list Event) :
  tx_ops (evs1 ++ evs2) = tx_ops evs1 ++ tx_ops evs2.
Proof.
  induction evs1 as [|ev evs1 IH]; [reflexivity|].
  destruct ev; cbn; by rewrite ?IH.
Qed.

Lemma releases_app (evs1 evs2 : list Event) :
  releases (evs1 ++ evs2) = releases evs1 ++ releases evs2.
Proof.
  induction evs1 as [|ev evs1 IH]; [reflexivity|].
  destruct ev; cbn; by rewrite ?IH.
Qed.

(** ** The scope: entry and exit *)

Section ScopeExit.
Context {W : Type} (drv : Driver W).

(** C1: on exit of a scope with a transaction open, the only
    transaction-control call is one rollback on the held connection when
    the exit comes from an exception, and one commit when it is clean;
    with no transaction open, [__aexit__] issues neither. *)
Theorem aexit_commits_or_rolls_back (s : DatabaseConnection)
    (exc_type : option exn) (w : W) :
  tx_ops (issued (DatabaseConnection.__aexit__ drv exc_type s w))
  = if _in_transaction s
    then [(conn s,
           match exc_type with Some _ => OpRollback | None => OpCommit end)]
    else [].
Proof.
  unfold_model. destruct s as [p c ac [|]], exc_type; drive; reflexivity.
Qed.

(** C2: whatever the driver answers and however the body ended,
    [__aexit__] releases the held connection to its pool exactly once,
    as its last call: every commit or rollback it issues comes before
    the release, also when that commit or rollback raised. *)
Theorem aexit_releases_once_last (s : DatabaseConnection)
    (exc_type : option exn) (w : W) :
  let evs := issued (DatabaseConnection.__aexit__ drv exc_type s w) in
  releases evs = [(pool s, conn s)] /\
  exists pre r,
    evs = pre ++ [EvRelease (pool s) (conn s) r] /\
    releases pre = [] /\
    tx_ops pre = tx_ops evs.
Proof.
  unfold_model. destruct s as [p c ac [|]], exc_type; drive;
    (split; [reflexivity|]); eexists _, _;
    (split;
     [ first [ exact eq_refl | exact (eq_refl ([_] ++ [_])) ]
     | split; reflexivity ]).
Qed.

(** The result of [__aexit__]: an exception of the release wins, then
    one of the commit or rollback; otherwise it returns. *)
Lemma aexit_raises_only_driver_errors (s : DatabaseConnection)
    (exc_type : option exn) (w : W) :
  let r := DatabaseConnection.__aexit__ drv exc_type s w in
  is_ok (value r) = all_ok (issued r).
Proof.
  unfold_model. destruct s as [p c ac [|]], exc_type; drive; reflexivity.
Qed.

(** [__aenter__] attempts [begin] on a scope that does not autocommit,
    and nothing else; it never releases the connection. *)
Lemma aenter_events (s : DatabaseConnection) (w : W) :
  let r := DatabaseConnection.__aenter__ drv s w in
  tx_ops (issued r) = (if autocommit s then [] else [(conn s, OpBegin)])
  /\ releases (issued r) = []
  /\ is_ok (value r) = all_ok (issued r).
Proof.
  unfold_model. destruct s as [p c [|] tx]; drive; by repeat split.
Qed.

(** When [begin] raises in [__aenter__], the error reaches the caller
    and the one call made is that [begin]. *)
Lemma aenter_begin_failure (s : DatabaseConnection) (w w' : W) (e : exn) :
  autocommit s = false ->
  conn_begin drv (conn s) w = (Raise e, w') ->
  DatabaseConnection.__aenter__ drv s w
  = MkRun (Raise e) s w' [EvBegin (conn s) (Raise e)].
Proof.
  intros Hac Hbegin. unfold_model. cbv beta iota.
  rewrite Hac. cbn [negb]. cbv beta iota. by rewrite Hbegin.
Qed.
End ScopeExit.

(** ** The scope: statements *)

Section ScopeStatements.
Context {W : Type} (drv : Driver W).

(** C5: [execute], [insert] and [update] of a scope, on every driver:
    once the driver has granted the cursor and executed the statement,
    a scope with autocommit true issues a commit on the held connection
    as the very next call, before the cursor is closed; a scope with
    autocommit false issues no commit.  When the cursor or the statement
    raised, nothing was executed and no commit is issued. *)
Theorem mutating_calls_commit_per_statement (s : DatabaseConnection) (w : W)
    (sql table where_ : string) (args : list Value) (data : Row) :
  commits_each_statement drv (conn s) (autocommit s) sql (args_or_None args)
    w (issued (DatabaseConnection.execute drv sql args s w)) /\
  commits_each_statement drv (conn s) (autocommit s)
    ("INSERT INTO " +:+ table +:+ " (" +:+ column_list (keys data)
       +:+ ") VALUES (" +:+ placeholder_list (length (values data)) +:+ ")")
    (Some (values data))
    w (issued (DatabaseConnection.insert drv table data s w)) /\
  commits_each_statement drv (conn s) (autocommit s)
    ("UPDATE " +:+ table +:+ " SET " +:+ set_clause (keys data)
       +:+ " WHERE " +:+ where_)
    (args_or_None (values data ++ args))
    w (issued (DatabaseConnection.update drv table data where_ args s w)).
Proof.
  unfold commits_each_statement.
  replace (length (values data)) with (length data)
    by (symmetry; apply length_map).
  cbv [DatabaseConnection.update DatabaseConnection.insert].
  rewrite join_set_clause, join_column_list, join_placeholder_list.
  unfold_model. destruct s as [p c [|] tx]; repeat split; settle; reflexivity.
Qed.

(** C6: for a non-empty [data], once the driver grants the cursor,
    [update] executes on it exactly one statement, namely
    [UPDATE table SET k=%s,... WHERE where] with one term per key in
    iteration order, bound to the values of [data] in that order
    followed by the arguments of the WHERE clause. *)
Theorem update_builds_statement (table : string) (data : Row)
    (where_ : string) (args : list Value) (s : DatabaseConnection) (w : W) :
  data <> [] ->
  sends_statement drv (conn s) PlainCursor
    ("UPDATE " +:+ table +:+ " SET " +:+ set_clause (keys data)
       +:+ " WHERE " +:+ where_)
    (Some (values data ++ args)) w
    (issued (DatabaseConnection.update drv table data where_ args s w)).
Proof.
  intros Hdata. unfold sends_statement.
  cbv [DatabaseConnection.update]. rewrite join_set_clause.
  assert (values data <> []) as Hvals by (by destruct data).
  unfold_model. rewrite (args_or_None_nonempty _ _ Hvals).
  destruct s as [p c [|] tx]; settle; sent.
Qed.

(** The statement of [insert], with every value bound. *)
Lemma insert_builds_statement (table : string) (data : Row)
    (s : DatabaseConnection) (w : W) :
  let evs := issued (DatabaseConnection.insert drv table data s w) in
  statements evs
  = if cursor_opened evs
    then [("INSERT INTO " +:+ table +:+ " (" +:+ join "," (keys data)
             +:+ ") VALUES ("
             +:+ join "," (replicate (length data) "%s") +:+ ")",
           Some (values data))]
    else [].
Proof.
  unfold_model. destruct s as [p c [|] tx]; drive; finish.
Qed.

(** C7: once the driver hands out a connection and a cursor, the
    legacy [update_table] executes exactly one statement, the text
    [UPDATE table SET k=%s,... WHERE field="value"] in which the WHERE
    value is written between double quotes, and binds the SET values
    only. *)
Theorem update_table_interpolates_where (table_name : string)
    (updates : Row) (field_where : string) (value_where : Value)
    (s : AsyncMysqlDB) (w : W) :
  legacy_sends_statement drv (_AsyncMysqlDB__pool s) PlainCursor
    ("UPDATE " +:+ table_name +:+ " SET " +:+ set_clause (keys updates)
       +:+ " WHERE " +:+ field_where +:+ "=" +:+ dquote
       +:+ py_str value_where +:+ dquote)
    (Some (values updates)) w
    (issued (AsyncMysqlDB.update_table drv table_name updates field_where
               value_where s w)).
Proof.
  unfold legacy_sends_statement, sends_statement.
  cbv [AsyncMysqlDB.update_table]. rewrite update_table_loop_items.
  cbn [fst snd]. rewrite join_set_clause.
  unfold_model. settle; sent.
Qed.

End ScopeStatements.

(** ** The scope: the flag [_in_transaction] *)

Section ScopeFlag.
Context {W : Type} (drv : Driver W).

(** No operation changes the pool, the connection or the autocommit
    mode of a scope. *)
Lemma run_op_keeps_identity (o : ScopeOp) (s : DatabaseConnection) (w : W) :
  let s' := state (run_op drv o s w) in
  pool s' = pool s /\ conn s' = conn s /\ autocommit s' = autocommit s.
Proof.
  unfold run_op.
  destruct s as [p c [|] [|]], o; unfold_model;
    try match goal with
        | |- context [match ?e with Some _ => _ | None => _ end] =>
            destruct e
        end;
    drive; by repeat split.
Qed.

(** [execute], [insert] and [update] never assign the flag. *)
Lemma mutating_keeps_flag (o : ScopeOp) (s : DatabaseConnection) (w : W) :
  is_mutating o = true ->
  _in_transaction (state (run_op drv o s w)) = _in_transaction s.
Proof.
  unfold run_op.
  destruct s as [p c [|] tx], o; try discriminate; intros _;
    unfold_model; drive; reflexivity.
Qed.

(** Away from a mutating call on an autocommit scope with a
    transaction open, the flag follows the calls that succeeded. *)
Lemma run_op_flag_tracks (o : ScopeOp) (s : DatabaseConnection) (w : W) :
  is_mutating o && autocommit s && _in_transaction s = false ->
  flag_tracks drv o s w.
Proof.
  unfold flag_tracks, run_op.
  destruct s as [p c [|] [|]], o; cbn [is_mutating andb autocommit
                                        _in_transaction];
    try discriminate; intros _; unfold_model;
    try match goal with
        | |- context [match ?e with Some _ => _ | None => _ end] =>
            destruct e
        end;
    drive; finish.
Qed.

(** What every operation does to the flag: it follows the begins,
    commits and rollbacks that succeeded, except that [execute],
    [insert] and [update] on an autocommit scope whose flag is set leave
    it set whatever their own commit did. *)
Theorem flag_follows_tx_calls (o : ScopeOp) (s : DatabaseConnection) (w : W) :
  if is_mutating o && autocommit s && _in_transaction s
  then _in_transaction (state (run_op drv o s w)) = true
  else flag_tracks drv o s w.
Proof.
  destruct (is_mutating o && autocommit s && _in_transaction s) eqn:E.
  - apply andb_prop in E as [E Htx]. apply andb_prop in E as [Hmut _].
    by rewrite (mutating_keeps_flag o s w Hmut).
  - by apply run_op_flag_tracks.
Qed.

(** X13: on a scope without autocommit, after any sequence of
    operations issued one after another (each may raise and be caught),
    the flag tells whether a transaction is open on the connection,
    as the begins, commits and rollbacks that succeeded leave it. *)
Lemma flag_invariant_without_autocommit (os : list ScopeOp)
    (s : DatabaseConnection) (w : W) :
  autocommit s = false ->
  let r := run_ops drv os s w in
  _in_transaction (state r)
  = tx_open_after (conn s) (issued r) (_in_transaction s).
Proof.
  revert s w. induction os as [|o os IH]; intros s w Hac; [reflexivity|].
  cbn [run_ops].
  pose proof (run_op_keeps_identity o s w) as (_ & Hconn & Hac').
  pose proof (run_op_flag_tracks o s w) as Hstep.
  unfold flag_tracks in Hstep. cbv zeta in *.
  destruct (run_op drv o s w) as [v1 s1 w1 evs1]. cbn in Hconn, Hac', Hstep.
  specialize (IH s1 w1). cbv zeta in IH.
  destruct (run_ops drv os s1 w1) as [v2 s2 w2 evs2]. cbn in IH |- *.
  rewrite tx_open_after_app, <- Hstep, <- Hconn.
  - apply IH. congruence.
  - rewrite Hac. by rewrite andb_false_r.
Qed.
End ScopeFlag.

(** ** The database object *)

Section Database.
Context {W : Type} (drv : Driver W).

(** C9: while the pool is [None], [get_connection] and the five
    operations built on it raise the pool-not-initialized
    [RuntimeError] without any driver call, and leave the object and
    the world unchanged. *)
Theorem uninitialized_pool_fails (s : AsyncDatabase) (w : W)
    (sql table where_ : string) (args : list Value) (data : Row) :
  _AsyncDatabase__pool s = None ->
  fails_uninitialized s w (AsyncDatabase.get_connection drv s w) /\
  fails_uninitialized s w (AsyncDatabase.query drv sql args s w) /\
  fails_uninitialized s w (AsyncDatabase.get drv sql args s w) /\
  fails_uninitialized s w (AsyncDatabase.execute drv sql args s w) /\
  fails_uninitialized s w (AsyncDatabase.insert drv table data s w) /\
  fails_uninitialized s w
    (AsyncDatabase.update drv table data where_ args s w).
Proof.
  intros Hpool. unfold fails_uninitialized. unfold_db. unfold_model.
  cbv beta iota. rewrite Hpool. done.
Qed.

(** The configuration of [connect] always asks for driver-level
    autocommit; [kwargs] cannot hold the key, which Python binds to the
    named parameter. *)
Lemma pool_config_autocommit (host : string) (port : Z)
    (user password db : option string) (charset : string)
    (minsize maxsize : Z) (kwargs : gmap string CfgVal) :
  kwargs !! "autocommit" = None ->
  AsyncDatabase.pool_config host port user password db charset minsize
    maxsize kwargs !! "autocommit" = Some (CBool true).
Proof.
  intros Hk. unfold AsyncDatabase.pool_config.
  rewrite lookup_union_r by exact Hk.
  by simplify_map_eq.
Qed.

(** C10: [connect] creates the pool with driver-level autocommit
    [True] whatever [autocommit] the caller gives, which it only
    records for the scopes; and a wrapper handed out by
    [get_connection] comes after a [begin] and then a [commit] on the
    freshly acquired connection, with [_in_transaction] false. *)
Theorem get_connection_hands_out_fresh_scope (host : string) (port : Z)
    (user password db : option string) (charset : string)
    (minsize maxsize : Z) (autocommit : bool)
    (kwargs : gmap string CfgVal) (s : AsyncDatabase) (w : W) :
  kwargs !! "autocommit" = None ->
  creates_autocommit_pool s autocommit
    (AsyncDatabase.connect drv host port user password db charset
       minsize maxsize autocommit kwargs s w) /\
  hands_out_fresh_scope s (AsyncDatabase.get_connection drv s w).
Proof.
  intros Hk. unfold creates_autocommit_pool, hands_out_fresh_scope. split.
  - unfold_db. unfold_model. drive; cbn.
    + eexists _, (Ok _). split; [reflexivity|].
      split; [by apply pool_config_autocommit | done].
    + eexists _, (Raise _). split; [reflexivity|].
      split; [by apply pool_config_autocommit | done].
  - unfold_db. unfold_model. cbv beta iota.
    destruct (_AsyncDatabase__pool s) as [p|] eqn:Hp; drive; cbn;
      try (right; reflexivity); [|by left].
    eexists _, _. repeat split. by rewrite bool_decide_eq_true_2.
Qed.

(** When the [begin] of [__aenter__] raises inside one of the
    operations of the database object, [__aexit__] does not run: the
    error reaches the caller and the acquired connection is not
    released. *)
Lemma scoped_begin_failure {A} (body : M W DatabaseConnection A)
    (s : AsyncDatabase) (p : Pool) (c : Conn) (e : exn)
    (w w1 w2 w3 w4 : W) :
  _AsyncDatabase__pool s = Some p ->
  _AsyncDatabase__autocommit s = false ->
  pool_acquire drv p w = (Ok c, w1) ->
  conn_begin drv c w1 = (Ok tt, w2) ->
  conn_commit drv c w2 = (Ok tt, w3) ->
  conn_begin drv c w3 = (Raise e, w4) ->
  AsyncDatabase.scoped drv body s w
  = MkRun (Raise e) s w4
      [EvAcquire p (Ok c); EvBegin c (Ok tt); EvCommit c (Ok tt);
       EvBegin c (Raise e)].
Proof.
  intros Hp Hac H1 H2 H3 H4. unfold_db. unfold_model. cbv beta iota.
  rewrite Hp. cbv beta iota. rewrite H1. cbv beta iota.
  rewrite H2. cbv beta iota. rewrite H3. cbv beta iota.
  rewrite Hac. cbn [DatabaseConnection.__init__ autocommit conn negb].
  cbv beta iota. rewrite H4. reflexivity.
Qed.
End Database.

(** ** Concrete runs on the scripted driver *)

Example py_str_int : py_str (VInt (-12)) = "-12" /\ py_str (VInt 305) = "305".
Proof. by split. Qed.

(** A scope without autocommit: [insert] through the database object
    begins, executes, commits on exit and releases. *)
Example insert_commits_on_exit :
  AsyncDatabase.insert (scripted PyNone) "users" user_row (db0 false) []
  = MkRun (Ok 42%Z) (db0 false) []
      [EvAcquire 1 (Ok 7); EvBegin 7 (Ok tt); EvCommit 7 (Ok tt);
       EvBegin 7 (Ok tt); EvCursor 7 PlainCursor (Ok 3);
       EvExecute 3 "INSERT INTO users (name,age) VALUES (%s,%s)"
         (Some [VStr "A"; VInt 25]) (Ok 1%Z);
       EvCursorClose 3 (Ok tt); EvCommit 7 (Ok tt); EvRelease 1 7 (Ok tt)].
Proof. reflexivity. Qed.

(** With autocommit the statement is committed at once and the exit
    issues nothing but the release. *)
Example insert_autocommits :
  issued (AsyncDatabase.insert (scripted PyNone) "users" user_row (db0 true) [])
  = [EvAcquire 1 (Ok 7); EvBegin 7 (Ok tt); EvCommit 7 (Ok tt);
     EvCursor 7 PlainCursor (Ok 3);
     EvExecute 3 "INSERT INTO users (name,age) VALUES (%s,%s)"
       (Some [VStr "A"; VInt 25]) (Ok 1%Z);
     EvCommit 7 (Ok tt); EvCursorClose 3 (Ok tt); EvRelease 1 7 (Ok tt)].
Proof. reflexivity. Qed.

(** An exception in the body rolls back, and the scope is released. *)
Example body_error_rolls_back :
  DatabaseConnection.__aexit__ (scripted PyNone)
    (Some (ValueError "rollback")) (scope0 false true) []
  = MkRun (Ok tt) (scope0 false false) []
      [EvRollback 7 (Ok tt); EvRelease 1 7 (Ok tt)].
Proof. reflexivity. Qed.

(** A commit that raises on exit: the connection is released all the
    same, and the error of the commit reaches the caller. *)
Example failed_commit_still_releases :
  DatabaseConnection.__aexit__ (scripted PyNone) None (scope0 false true)
    [false]
  = MkRun (Raise (EngineError 2006)) (scope0 false true) []
      [EvCommit 7 (Raise (EngineError 2006)); EvRelease 1 7 (Ok tt)].
Proof. reflexivity. Qed.

(** The legacy [update_table] writes the WHERE value into the text. *)
Example update_table_text :
  statements
    (issued (AsyncMysqlDB.update_table (scripted PyNone) "users" user_row
               "id" (VInt 3) (AsyncMysqlDB.__init__ 1) []))
  = [("UPDATE users SET name=%s,age=%s WHERE id=" +:+ dquote +:+ "3"
        +:+ dquote,
      Some [VStr "A"; VInt 25])].
Proof. reflexivity. Qed.

(** An empty tuple from [fetchall] comes back as the empty list. *)
Example query_no_rows :
  value (AsyncMysqlDB.query (scripted (PyTuple [])) "SELECT 1" []
           (AsyncMysqlDB.__init__ 1) [])
  = Ok (PyList []) /\
  value (DatabaseConnection.query (scripted PyNone) "SELECT 1" []
           (scope0 true false) [])
  = Ok (PyList []).
Proof. by split. Qed.

(** C3 does not hold of the code.  A database object connected without
    autocommit runs [execute]; [get_connection] acquires connection 7 and
    its own [begin] and [commit] succeed; then the [begin] of
    [__aenter__] raises.  The error reaches the caller, as the claim
    says, but no release is issued: the connection stays checked out. *)
Theorem aenter_begin_failure_leaks_connection :
  let r := AsyncDatabase.execute (scripted PyNone) "DELETE FROM users" []
             (db0 false) [true; true; true; false] in
  value r = Raise (EngineError 2006) /\
  issued r = [EvAcquire 1 (Ok 7); EvBegin 7 (Ok tt); EvCommit 7 (Ok tt);
              EvBegin 7 (Raise (EngineError 2006))] /\
  releases (issued r) = [].
Proof. by repeat split. Qed.

(** C4 does not hold of the code.  On a scope with autocommit true,
    [begin] succeeds and sets [_in_transaction]; then [execute] runs a
    statement and commits on the connection by itself, and the commit
    succeeds: no transaction is open any more, yet [_in_transaction] is
    still true, where [commit] would have cleared it. *)
Lemma flag_stale_after_autocommit_statement :
  let r0 := DatabaseConnection.begin (scripted PyNone)
              (DatabaseConnection.__init__ 1 7 true) [] in
  let r := DatabaseConnection.execute (scripted PyNone) "DELETE FROM users"
             [] (state r0) (world r0) in
  _in_transaction (state r0) = true /\
  issued r = [EvCursor 7 PlainCursor (Ok 3);
              EvExecute 3 "DELETE FROM users" None (Ok 1%Z);
              EvCommit 7 (Ok tt); EvCursorClose 3 (Ok tt)] /\
  tx_open_after 7 (issued r) true = false /\
  _in_transaction (state r) = true /\
  ~ flag_tracks (scripted PyNone) (OExecute "DELETE FROM users" [])
      (state r0) (world r0).
Proof.
  repeat split; try reflexivity. vm_compute. discriminate.
Qed.

(** ** Instances of the theorems that carry a hypothesis *)

Lemma update_builds_statement_witness :
  user_row <> [] /\
  sends_statement (scripted PyNone) 7 PlainCursor
    "UPDATE users SET name=%s,age=%s WHERE id = %s"
    (Some [VStr "A"; VInt 25; VInt 3]) []
    (issued (DatabaseConnection.update (scripted PyNone) "users" user_row
               "id = %s" [VInt 3] (scope0 true false) [])) /\
  sends_statement (scripted PyNone) 7 PlainCursor
    "UPDATE users SET name=%s,age=%s WHERE id = %s"
    (Some [VStr "A"; VInt 25; VInt 3]) [true; false]
    (issued (DatabaseConnection.update (scripted PyNone) "users" user_row
               "id = %s" [VInt 3] (scope0 false true) [true; false])).
Proof.
  split; [discriminate|]. split.
  - apply (update_builds_statement (scripted PyNone) "users" user_row
             "id = %s" [VInt 3] (scope0 true false) []).
    discriminate.
  - apply (update_builds_statement (scripted PyNone) "users" user_row
             "id = %s" [VInt 3] (scope0 false true) [true; false]).
    discriminate.
Defined.

Lemma uninitialized_pool_fails_witness :
  _AsyncDatabase__pool AsyncDatabase.__init__ = None /\
  (fails_uninitialized AsyncDatabase.__init__ []
     (AsyncDatabase.get_connection (scripted PyNone) AsyncDatabase.__init__ [])
   /\
   fails_uninitialized AsyncDatabase.__init__ []
     (AsyncDatabase.query (scripted PyNone) "SELECT 1" [VInt 3]
        AsyncDatabase.__init__ []) /\
   fails_uninitialized AsyncDatabase.__init__ []
     (AsyncDatabase.get (scripted PyNone) "SELECT 1" [VInt 3]
        AsyncDatabase.__init__ []) /\
   fails_uninitialized AsyncDatabase.__init__ []
     (AsyncDatabase.execute (scripted PyNone) "SELECT 1" [VInt 3]
        AsyncDatabase.__init__ []) /\
   fails_uninitialized AsyncDatabase.__init__ []
     (AsyncDatabase.insert (scripted PyNone) "users" user_row
        AsyncDatabase.__init__ []) /\
   fails_uninitialized AsyncDatabase.__init__ []
     (AsyncDatabase.update (scripted PyNone) "users" user_row "id = %s"
        [VInt 3] AsyncDatabase.__init__ [])).
Proof.
  split; [reflexivity|].
  apply (uninitialized_pool_fails (scripted PyNone) AsyncDatabase.__init__ []
           "SELECT 1" "users" "id = %s" [VInt 3] user_row).
  reflexivity.
Defined.

Lemma get_connection_hands_out_fresh_scope_witness :
  extra_kwargs !! "autocommit" = None /\
  (creates_autocommit_pool (db0 true) false
     (AsyncDatabase.connect (scripted PyNone) "127.0.0.1" 3306 (Some "root")
        None (Some "test") "utf8mb4" 1 10 false extra_kwargs (db0 true) [])
   /\
   hands_out_fresh_scope (db0 true)
     (AsyncDatabase.get_connection (scripted PyNone) (db0 true) [])).
Proof.
  split; [reflexivity|].
  apply (get_connection_hands_out_fresh_scope (scripted PyNone) "127.0.0.1"
           3306 (Some "root") None (Some "test") "utf8mb4" 1 10 false
           extra_kwargs (db0 true) []).
  reflexivity.
Defined.

(** * Further properties of the helpers *)

(** ** The legacy helpers *)

Section LegacyHelpers.
Context {W : Type} (drv : Driver W).

(** X1: the five methods of [AsyncMysqlDB] never begin, commit or roll
    back; they release the connection they acquired exactly once (and
    none when the acquire raised), close the cursor they obtained exactly
    once, and let the exception of the last driver call that raised
    reach the caller. *)
Theorem legacy_helpers_borrow_and_return (s : AsyncMysqlDB) (w : W)
    (sql table field : string) (args : list Value) (item : Row)
    (v : Value) :
  borrows_and_returns (AsyncMysqlDB.query drv sql args s w) /\
  borrows_and_returns (AsyncMysqlDB.get_first drv sql args s w) /\
  borrows_and_returns (AsyncMysqlDB.item_to_table drv table item s w) /\
  borrows_and_returns
    (AsyncMysqlDB.update_table drv table item field v s w) /\
  borrows_and_returns (AsyncMysqlDB.execute drv sql args s w).
Proof.
  unfold borrows_and_returns.
  cbv [AsyncMysqlDB.query AsyncMysqlDB.get_first AsyncMysqlDB.item_to_table
       AsyncMysqlDB.update_table AsyncMysqlDB.execute].
  unfold_model. repeat split; settle; reflexivity.
Qed.
End LegacyHelpers.

(** ** The scope *)

Section ScopeResources.
Context {W : Type} (drv : Driver W).

(** X2: every operation of a scope closes each cursor it obtained
    exactly once, also when the statement raised; and it returns exactly
    when no driver call raised, the exception reaching the caller being
    that of the last call that raised (a failing cursor close, release
    or rollback hides an earlier error). *)
Theorem scope_ops_close_cursors (o : ScopeOp) (s : DatabaseConnection)
    (w : W) :
  let evs := issued (run_op drv o s w) in
  closed_cursors evs = opened_cursors evs /\
  exc_of (value (run_op drv o s w)) = last_error evs.
Proof.
  unfold run_op. destruct s as [p c [|] [|]], o; unfold_model; split_exc;
    split; settle; reflexivity.
Qed.

(** X3: the connection of a scope is handed back by [__aexit__] and by
    nothing else; no operation acquires a connection; and [query], [get],
    [execute], [insert] and [update] leave the scope object as it was. *)
Theorem only_aexit_releases (o : ScopeOp) (s : DatabaseConnection) (w : W) :
  let r := run_op drv o s w in
  releases (issued r)
  = match o with OAexit _ => [(pool s, conn s)] | _ => [] end /\
  acquired (issued r) = [] /\
  match o with
  | OBegin | OCommit | ORollback | OAenter | OAexit _ => True
  | _ => state r = s
  end.
Proof.
  unfold run_op. destruct s as [p c [|] [|]], o; unfold_model; split_exc;
    repeat split; settle; reflexivity.
Qed.

(** X4: [async with scope: body], for any body.  When [__aenter__]
    raises, nothing else runs.  Otherwise the calls are those of
    [__aenter__], those of the body, then those of the exit: if the flag
    is set after the body, one commit when the body returned and one
    rollback when it raised; then one release.  The scope hands on what
    the body returned or raised, unless a call of the exit raised. *)
Theorem scope_commits_iff_body_returns {A} (body : M W DatabaseConnection A)
    (s : DatabaseConnection) (w : W) :
  let r := async_with (DatabaseConnection.__aenter__ drv)
             (DatabaseConnection.__aexit__ drv) (fun _ => body) s w in
  let r0 := DatabaseConnection.__aenter__ drv s w in
  match value r0 with
  | Raise e => r = MkRun (Raise e) (state r0) (world r0) (issued r0)
  | Ok _ =>
      let rb := body (state r0) (world r0) in
      let sb := state rb in
      exists exit_evs,
        issued r = issued r0 ++ issued rb ++ exit_evs /\
        tx_ops exit_evs
        = (if _in_transaction sb
           then [(conn sb,
                  if is_ok (value rb) then OpCommit else OpRollback)]
           else []) /\
        releases exit_evs = [(pool sb, conn sb)] /\
        value r = match last_error exit_evs with
                  | Some e => Raise e
                  | None => value rb
                  end
  end.
Proof.
  cbv zeta. unfold_model. destruct s as [p c [|] tx]; settle;
    try reflexivity.
  all: destruct (body _ _) as [[v|e] [pb cb acb [|]] wb evsb]; settle;
    eexists; (split; [reflexivity|]); by repeat split.
Qed.
End ScopeResources.

(** ** The database object *)

Section DatabaseOps.
Context {W : Type} (drv : Driver W).

(** X5: [query], [get], [execute], [insert] and [update] of the database
    object leave the object unchanged; they release the connection
    exactly once when [get_connection] and [__aenter__] succeeded and not
    at all otherwise; they close every cursor they obtained; and the
    exception reaching the caller is the pool-not-initialized error or
    that of the last driver call that raised. *)
Theorem database_ops_return_connection (s : AsyncDatabase) (w : W)
    (sql table where_ : string) (args : list Value) (data : Row) :
  returns_borrowed_connection drv s w (AsyncDatabase.query drv sql args s w)
  /\
  returns_borrowed_connection drv s w (AsyncDatabase.get drv sql args s w)
  /\
  returns_borrowed_connection drv s w
    (AsyncDatabase.execute drv sql args s w) /\
  returns_borrowed_connection drv s w
    (AsyncDatabase.insert drv table data s w) /\
  returns_borrowed_connection drv s w
    (AsyncDatabase.update drv table data where_ args s w).
Proof.
  unfold returns_borrowed_connection. unfold_db. unfold_model.
  cbv [DatabaseConnection.__init__]. cbv beta iota zeta.
  destruct s as [[p|] [|]];
    cbn [_AsyncDatabase__pool _AsyncDatabase__autocommit];
    repeat split; settle; reflexivity.
Qed.

(** X6: [close] without a pool does nothing.  With a pool it closes it
    and waits; when the wait returns, the pool is forgotten, a second
    [close] makes no driver call and [get_connection] raises the
    pool-not-initialized error; when the wait raises, the object keeps
    its pool. *)
Theorem close_is_idempotent (s : AsyncDatabase) (w : W) :
  let r := AsyncDatabase.close drv s w in
  match _AsyncDatabase__pool s with
  | None => r = MkRun (Ok tt) s w []
  | Some p =>
      exists a,
        issued r = [EvPoolClose p; EvWaitClosed p a] /\
        match a with
        | Ok _ =>
            value r = Ok tt /\
            state r = {| _AsyncDatabase__pool := None;
                         _AsyncDatabase__autocommit :=
                           _AsyncDatabase__autocommit s |} /\
            AsyncDatabase.close drv (state r) (world r)
            = MkRun (Ok tt) (state r) (world r) [] /\
            fails_uninitialized (state r) (world r)
              (AsyncDatabase.get_connection drv (state r) (world r))
        | Raise e => value r = Raise e /\ state r = s
        end
  end.
Proof.
  unfold fails_uninitialized. cbv zeta. unfold_db. unfold_model.
  destruct s as [[p|] ac]; simp_run; [|reflexivity].
  destruct (pool_wait_closed drv p (pool_close drv p w)) as [[[]|e] w1];
    simp_run; eexists; (split; [reflexivity|]); by repeat split.
Qed.

(** X7: after a [connect] that returned, a wrapper handed out by
    [get_connection] holds the pool that [create_pool] returned and the
    [autocommit] given to [connect], and entering it begins a transaction
    exactly when that [autocommit] is false.  A [connect] that raised
    leaves the object unchanged. *)
Theorem connect_sets_scope_mode (host : string) (port : Z)
    (user password db : option string) (charset : string)
    (minsize maxsize : Z) (ac : bool)
    (kwargs : gmap string CfgVal) (s : AsyncDatabase) (w : W) :
  let r := AsyncDatabase.connect drv host port user password db charset
             minsize maxsize ac kwargs s w in
  match value r with
  | Raise _ => state r = s /\ created (issued r) = []
  | Ok _ =>
      let g := AsyncDatabase.get_connection drv (state r) (world r) in
      match value g with
      | Ok sc =>
          created (issued r) = [pool sc] /\
          acquired (issued g) = [(pool sc, conn sc)] /\
          autocommit sc = ac /\
          tx_ops (issued (DatabaseConnection.__aenter__ drv sc (world g)))
          = (if ac then [] else [(conn sc, OpBegin)])
      | Raise _ =>
          state g = state r /\ last_error (issued g) = exc_of (value g)
      end
  end.
Proof.
  cbv zeta. unfold_db. unfold_model. cbv [DatabaseConnection.__init__].
  destruct ac; settle; by repeat split.
Qed.
End DatabaseOps.

Section ConnectOptions.
Context {W : Type} (drv : Driver W).

(** X8: when [kwargs] holds none of the names that [connect] takes as
    parameters (Python binds those to the parameters), the one driver
    call of [connect] is [create_pool] with a configuration that holds
    every entry of [kwargs] unchanged, the caller's value for each named
    option, [True] for [autocommit], and nothing else. *)
Theorem connect_passes_options (host : string) (port : Z)
    (user password db : option string) (charset : string)
    (minsize maxsize : Z) (ac : bool) (kwargs : gmap string CfgVal)
    (s : AsyncDatabase) (w : W) :
  Forall (fun k => kwargs !! k = None) named_options ->
  exists cfg,
    issued (AsyncDatabase.connect drv host port user password db charset
              minsize maxsize ac kwargs s w)
    = [EvCreatePool cfg (create_pool drv cfg w).1] /\
    kwargs ⊆ cfg /\
    dom cfg = dom kwargs ∪ list_to_set named_options /\
    cfg !! "host" = Some (CStr host) /\
    cfg !! "port" = Some (CInt port) /\
    cfg !! "user" = Some (opt_str user) /\
    cfg !! "password" = Some (opt_str password) /\
    cfg !! "db" = Some (opt_str db) /\
    cfg !! "charset" = Some (CStr charset) /\
    cfg !! "minsize" = Some (CInt minsize) /\
    cfg !! "maxsize" = Some (CInt maxsize) /\
    cfg !! "autocommit" = Some (CBool true).
Proof.
  intros Hnamed.
  exists (AsyncDatabase.pool_config host port user password db charset
            minsize maxsize kwargs).
  split.
  { unfold_db. unfold_model. cbv zeta.
    destruct (create_pool drv _ w) as [[q|e] w1]; reflexivity. }
  unfold AsyncDatabase.pool_config.
  split; [apply map_union_subseteq_l|].
  split.
  { rewrite dom_union_L, !dom_insert_L, dom_empty_L. cbn. set_solver. }
  unfold named_options in Hnamed.
  repeat match goal with
         | H : Forall _ (_ :: _) |- _ =>
             apply Forall_cons in H as [? H]
         end.
  repeat split; (rewrite lookup_union_r by assumption); by simplify_map_eq.
Qed.
End ConnectOptions.

(** ** Statements and results *)

Section HelperStatements.
Context {W : Type} (drv : Driver W).


(** X10: [get] of a scope and the legacy [get_first] return what
    [fetchone] answered, be it a row or [None], when no driver call
    raised, and raise otherwise. *)
Theorem get_returns_first_row (sql : string) (args : list Value)
    (s : DatabaseConnection) (l : AsyncMysqlDB) (w : W) :
  returns_first_row (DatabaseConnection.get drv sql args s w) /\
  returns_first_row (AsyncMysqlDB.get_first drv sql args l w).
Proof.
  unfold returns_first_row. cbv [AsyncMysqlDB.get_first]. unfold_model.
  split; settle; by repeat split.
Qed.

(** X11: once the driver grants the cursor (and, for the legacy
    helper, the connection), [insert] of a scope and the legacy
    [item_to_table] execute exactly one INSERT statement naming the keys
    of the row in iteration order, with as many placeholders as the row
    has values, and bind exactly those values in the same order; an
    empty row gives empty lists and an empty parameter list. *)
Theorem insert_statements (table : string) (data : Row)
    (s : DatabaseConnection) (l : AsyncMysqlDB) (w : W) :
  sends_statement drv (conn s) PlainCursor
    ("INSERT INTO " +:+ table +:+ " (" +:+ column_list (keys data)
       +:+ ") VALUES (" +:+ placeholder_list (length (values data)) +:+ ")")
    (Some (values data)) w
    (issued (DatabaseConnection.insert drv table data s w)) /\
  legacy_sends_statement drv (_AsyncMysqlDB__pool l) DictCursor
    ("INSERT INTO " +:+ table +:+ " (" +:+ column_list (keys data)
       +:+ ") VALUES(" +:+ placeholder_list (length (values data)) +:+ ")")
    (Some (values data)) w
    (issued (AsyncMysqlDB.item_to_table drv table data l w)).
Proof.
  unfold legacy_sends_statement, sends_statement.
  replace (length (values data)) with (length data)
    by (symmetry; apply length_map).
  cbv [AsyncMysqlDB.item_to_table DatabaseConnection.insert].
  rewrite join_column_list, join_placeholder_list.
  unfold_model. destruct s as [p c [|] tx]; split; settle; sent.
Qed.

(** X12: once the driver grants the cursor, [update] of a scope
    executes its statement for every mapping, an empty one included (the
    SET clause is then empty); the parameters are the values followed
    by the WHERE arguments, and [None] when both are empty. *)
Theorem update_statement_any_data (table : string) (data : Row)
    (where_ : string) (args : list Value) (s : DatabaseConnection) (w : W) :
  sends_statement drv (conn s) PlainCursor
    ("UPDATE " +:+ table +:+ " SET " +:+ set_clause (keys data)
       +:+ " WHERE " +:+ where_)
    (match values data ++ args with
     | [] => None
     | params => Some params
     end) w
    (issued (DatabaseConnection.update drv table data where_ args s w)).
Proof.
  unfold sends_statement. cbv [DatabaseConnection.update].
  rewrite join_set_clause.
  replace (match values data ++ args with
           | [] => None
           | params => Some params
           end)
    with (args_or_None (values data ++ args))
    by (by destruct (values data ++ args)).
  unfold_model. destruct s as [p c [|] tx]; settle; sent.
Qed.
End HelperStatements.

(** ** Concrete runs and instances *)

(** The rollback test: an update, then an exception in the body.  The
    scope rolls back, releases, and the exception of the body reaches
    the caller. *)
Example body_exception_rolls_back_update :
  async_with (DatabaseConnection.__aenter__ (scripted PyNone))
    (DatabaseConnection.__aexit__ (scripted PyNone))
    (fun _ => update_then_raise (scripted PyNone)) (scope0 false false) []
  = MkRun (Raise (ValueError "rollback")) (scope0 false false) []
      [EvBegin 7 (Ok tt); EvCursor 7 PlainCursor (Ok 3);
       EvExecute 3 "UPDATE users SET age=%s WHERE id = %s"
         (Some [VInt 41; VInt 3]) (Ok 1%Z);
       EvCursorClose 3 (Ok tt); EvRollback 7 (Ok tt); EvRelease 1 7 (Ok tt)].
Proof. reflexivity. Qed.

(** A rollback that raises on exit hides the exception of the body. *)
Example failed_rollback_hides_body_error :
  value
    (async_with (DatabaseConnection.__aenter__ (scripted PyNone))
       (DatabaseConnection.__aexit__ (scripted PyNone))
       (fun _ => update_then_raise (scripted PyNone)) (scope0 false false)
       [true; true; true; true; false])
  = Raise (EngineError 2006).
Proof. reflexivity. Qed.

Lemma connect_passes_options_witness :
  Forall (fun k => extra_kwargs !! k = None) named_options /\
  (exists cfg,
     issued (AsyncDatabase.connect (scripted PyNone) "127.0.0.1" 3306
               (Some "root") None (Some "test") "utf8mb4" 1 10 false
               extra_kwargs AsyncDatabase.__init__ [])
     = [EvCreatePool cfg (create_pool (scripted PyNone) cfg []).1] /\
     extra_kwargs ⊆ cfg /\
     dom cfg = dom extra_kwargs ∪ list_to_set named_options /\
     cfg !! "host" = Some (CStr "127.0.0.1") /\
     cfg !! "port" = Some (CInt 3306) /\
     cfg !! "user" = Some (opt_str (Some "root")) /\
     cfg !! "password" = Some (opt_str None) /\
     cfg !! "db" = Some (opt_str (Some "test")) /\
     cfg !! "charset" = Some (CStr "utf8mb4") /\
     cfg !! "minsize" = Some (CInt 1) /\
     cfg !! "maxsize" = Some (CInt 10) /\
     cfg !! "autocommit" = Some (CBool true)).
Proof.
  assert (Forall (fun k => extra_kwargs !! k = None) named_options) as H
    by (repeat constructor).
  split; [exact H|].
  exact (connect_passes_options (scripted PyNone) "127.0.0.1" 3306
           (Some "root") None (Some "test") "utf8mb4" 1 10 false
           extra_kwargs AsyncDatabase.__init__ [] H).
Defined.

Lemma flag_invariant_without_autocommit_witness :
  autocommit (scope0 false false) = false /\
  (let r := run_ops (scripted PyNone)
              [OAenter; OInsert "users" user_row; OCommit;
               OExecute "DELETE FROM users" []; ORollback; OBegin]
              (scope0 false false) [true; true; false] in
   _in_transaction (state r)
   = tx_open_after (conn (scope0 false false)) (issued r)
       (_in_transaction (scope0 false false))).
Proof.
  split; [reflexivity|].
  apply (flag_invariant_without_autocommit (scripted PyNone)
           [OAenter; OInsert "users" user_row; OCommit;
            OExecute "DELETE FROM users" []; ORollback; OBegin]
           (scope0 false false) [true; true; false]).
  reflexivity.
Defined.
